(** * dyna_settings: environment-dependent settings resolution

    A shallow embedding of [dyna_settings/dyna_settings.py]: the
    [DynaSettings] provider base class, the [DynaSettingsController]
    (registration with single-match exclusivity, value lookup with
    production-value fallback, the "environment variables trump" mode)
    and the module-level wrappers, followed by the properties of the
    controller that the specification states.

    Python objects with identity (the [DynaSettings] instances) live in a
    heap indexed by references; the controller stores references, so the
    aliasing between the registry list, the active-provider slot and the
    caller's own handle on an instance is the one the Python code has.
    Exceptions are results; a raise keeps the mutations made before it. *)

From Stdlib Require Import ZArith String List Bool.
From stdpp Require Import base option gmap strings list fin_maps.

Local Open Scope string_scope.

(** ** Python values *)

(** Function objects cannot be stored inside the value type itself (they
    take values as arguments), so a value names a function by an index
    into a table of behaviours, see [call_table]. *)
Definition fn_id := nat.

(** The values a settings dictionary, a production value or a detector
    result can hold.  [PyFunction] is an instance of
    [types.FunctionType] (a [def] or a [lambda]); [PyCallable] is any
    other object for which [callable(x)] holds: a bound method, a builtin,
    a class, a [functools.partial], an instance with [__call__]. *)
Inductive pyval : Type :=
| PyNone
| PyBool (b : bool)
| PyInt (n : Z)
| PyStr (s : string)
| PyFunction (f : fn_id)
| PyCallable (f : fn_id).

(** Truth value testing ([if val:], [not val]). *)
Definition truthy (v : pyval) : bool :=
  match v with
  | PyNone => false
  | PyBool b => b
  | PyInt n => negb (n =? 0)%Z
  | PyStr s => negb (String.eqb s "")
  | PyFunction _ => true
  | PyCallable _ => true
  end.

(** [val is not None] *)
Definition is_not_None (v : pyval) : bool :=
  match v with
  | PyNone => false
  | _ => true
  end.

(** [isinstance(val, types.FunctionType)] *)
Definition is_FunctionType (v : pyval) : bool :=
  match v with
  | PyFunction _ => true
  | _ => false
  end.

(** [callable(val)] *)
Definition callable (v : pyval) : bool :=
  match v with
  | PyFunction _ | PyCallable _ => true
  | _ => false
  end.

(** ** Exceptions *)

(** References to heap-allocated [DynaSettings] instances. *)
Definition ref := nat.

(** The two messages [register] builds for the generic [Exception] it
    raises; each carries the instance that is formatted into the text. *)
Inductive message : Type :=
| Re_registering (r : ref)
    (* 'Re-registering env_settings_class: %s' % str(env_settings_class) *)
| Multiple_environment_checks_matched (r : ref).
    (* ('Multiple environment checks matched for DynaSettings while
        registering %s', str(type(env_settings_class))) *)

Inductive exn : Type :=
| Exception (m : message)
| NoMatchingSettingsClass
| MultipleSettingsClassMatch     (* declared by the module, raised nowhere *)
| AssertionError
| Raised (name : string).        (* whatever caller-supplied code raises:
                                    NotImplementedError, TypeError, ... *)

Inductive result (A : Type) : Type :=
| Ok (a : A)
| Raise (e : exn).
Arguments Ok {A} a.
Arguments Raise {A} e.

(** Behaviour of the function objects: the outcome of
    [f(production_value=v)]. *)
Definition call_table := fn_id -> pyval -> result pyval.

(** Calling any callable with the keyword argument [production_value]. *)
Definition py_call (call : call_table) (v production_value : pyval) : result pyval :=
  match v with
  | PyFunction f | PyCallable f => call f production_value
  | _ => Raise (Raised "TypeError")
  end.

(** ** class DynaSettings *)

(** An instance of (a subclass of) [DynaSettings].  The two virtual
    methods are given by their outcome: the host environment does not
    change during a run, and the base class raises [NotImplementedError]
    in both. *)
Record DynaSettings : Type := mkDynaSettings {
  env_detector : result pyval;
  value_dict : result (gmap string pyval);
  _value_dict : gmap string pyval;
  _environ_vars_trump : bool
}.

(** [DynaSettings.__init__] followed by the subclass's choices. *)
Definition DynaSettings_init
    (det : result pyval) (vals : result (gmap string pyval)) (trump : bool)
  : DynaSettings :=
  {| env_detector := det; value_dict := vals;
     _value_dict := ∅; _environ_vars_trump := trump |}.

(** [self._value_dict.update(self.value_dict())]: the new entries win. *)
Definition init_values (self : DynaSettings) : result DynaSettings :=
  match value_dict self with
  | Ok d =>
      Ok {| env_detector := env_detector self; value_dict := value_dict self;
            _value_dict := d ∪ _value_dict self;
            _environ_vars_trump := _environ_vars_trump self |}
  | Raise e => Raise e
  end.

Definition environ_vars_trump_of (self : DynaSettings) : bool :=
  _environ_vars_trump self.

Definition all_settings (self : DynaSettings) : gmap string pyval :=
  _value_dict self.

Definition get_value (call : call_table) (self : DynaSettings)
    (setting_name : string) (production_value : pyval) : result pyval :=
  match _value_dict self !! setting_name with
  | Some val =>
      if is_FunctionType val
      then py_call call val production_value
      else Ok val
  | None => Ok production_value
  end.

(** ** The objects [register] can be handed *)

(** What calling a class with no arguments yields when it returns. *)
Inductive newobj : Type :=
| NewDynaSettings (o : DynaSettings)   (* a fresh instance of a subclass *)
| NewOther (v : pyval).                (* an object of some unrelated class *)

Inductive pyobj : Type :=
| PyRef (r : ref)                      (* an object on the heap *)
| PyType (new : result newobj)         (* a class, by the outcome of [cls()] *)
| PyVal (v : pyval).                   (* any other non-class object *)

(** ** Logging *)

Inductive log_record : Type :=
| LOG_warning (m : message)
| LOG_error_Not_a_type_of_DynaSettings (o : pyobj).

(** ** class DynaSettingsController *)

Record DynaSettingsController : Type := mkController {
  dyna_settings_classes : list ref;
  detected_settings : option ref;
  did_find_multiple_matches : bool;
  environ_vars_trump : bool
}.

(** [DynaSettingsController.__init__] *)
Definition DynaSettingsController_init : DynaSettingsController :=
  {| dyna_settings_classes := [];
     detected_settings := None;
     did_find_multiple_matches := false;
     environ_vars_trump := false |}.

(** The process: the controller ([self], or the module's
    [_dyna_controller]), the heap of [DynaSettings] instances with its
    allocation pointer, the function objects, [os.environ] and the records
    handed to the [dyna_settings] logger. *)
Record world : Type := mkWorld {
  controller : DynaSettingsController;
  heap : gmap ref DynaSettings;
  next_ref : ref;
  functions : call_table;
  os_environ : gmap string string;
  log : list log_record
}.

Definition with_controller (c : DynaSettingsController) (w : world) : world :=
  {| controller := c; heap := heap w; next_ref := next_ref w;
     functions := functions w; os_environ := os_environ w; log := log w |}.

Definition with_heap (h : gmap ref DynaSettings) (n : ref) (w : world) : world :=
  {| controller := controller w; heap := h; next_ref := n;
     functions := functions w; os_environ := os_environ w; log := log w |}.

Definition with_log (l : list log_record) (w : world) : world :=
  {| controller := controller w; heap := heap w; next_ref := next_ref w;
     functions := functions w; os_environ := os_environ w; log := l |}.

(** ** State and exception monad *)

(** A computation returns or raises, and in both cases leaves a world
    behind: what was assigned before a [raise] stays assigned. *)
Definition M (A : Type) : Type := world -> result A * world.

#[global] Instance M_ret : MRet M := fun A a w => (Ok a, w).

#[global] Instance M_bind : MBind M := fun A B f m w =>
  match m w with
  | (Ok a, w') => f a w'
  | (Raise e, w') => (Raise e, w')
  end.

Definition raise {A : Type} (e : exn) : M A := fun w => (Raise e, w).

Definition lift {A : Type} (r : result A) : M A := fun w => (r, w).

Definition get_self : M DynaSettingsController := fun w => (Ok (controller w), w).

Definition set_self (c : DynaSettingsController) : M unit :=
  fun w => (Ok tt, with_controller c w).

Definition deref (r : ref) : M (option DynaSettings) := fun w => (Ok (heap w !! r), w).

Definition store (r : ref) (o : DynaSettings) : M unit :=
  fun w => (Ok tt, with_heap (<[r := o]> (heap w)) (next_ref w) w).

Definition alloc (o : DynaSettings) : M ref :=
  fun w => (Ok (next_ref w), with_heap (<[next_ref w := o]> (heap w)) (S (next_ref w)) w).

Definition LOG (rec : log_record) : M unit :=
  fun w => (Ok tt, with_log (log w ++ [rec]) w).

(** Field assignments on [self]. *)
Definition set_dyna_settings_classes (l : list ref) (c : DynaSettingsController) :=
  {| dyna_settings_classes := l; detected_settings := detected_settings c;
     did_find_multiple_matches := did_find_multiple_matches c;
     environ_vars_trump := environ_vars_trump c |}.

Definition set_detected_settings (d : option ref) (c : DynaSettingsController) :=
  {| dyna_settings_classes := dyna_settings_classes c; detected_settings := d;
     did_find_multiple_matches := did_find_multiple_matches c;
     environ_vars_trump := environ_vars_trump c |}.

Definition set_did_find_multiple_matches (b : bool) (c : DynaSettingsController) :=
  {| dyna_settings_classes := dyna_settings_classes c;
     detected_settings := detected_settings c;
     did_find_multiple_matches := b;
     environ_vars_trump := environ_vars_trump c |}.

Definition set_environ_vars_trump_field (b : bool) (c : DynaSettingsController) :=
  {| dyna_settings_classes := dyna_settings_classes c;
     detected_settings := detected_settings c;
     did_find_multiple_matches := did_find_multiple_matches c;
     environ_vars_trump := b |}.

Definition assign (f : DynaSettingsController -> DynaSettingsController) : M unit :=
  self ← get_self; set_self (f self).

(** [x in self.dyna_settings_classes].  The list holds [DynaSettings]
    instances only.  Provider classes are taken with the equality they
    inherit from [object], identity, as [DynaSettings] has it: the test
    then succeeds exactly for a reference that is in the list, and the
    reference is returned for the message.  (A subclass with an [__eq__]
    of its own would make it succeed for an equal, distinct instance.) *)
Definition py_in (x : pyobj) (l : list ref) : option ref :=
  match x with
  | PyRef r => if bool_decide (r ∈ l) then Some r else None
  | _ => None
  end.

(** [env_settings_class = env_settings_class()] *)
Definition instantiate (new : result newobj) : M pyobj :=
  match new with
  | Raise e => raise e
  | Ok (NewDynaSettings o) => r ← alloc o; mret (PyRef r)
  | Ok (NewOther v) => mret (PyVal v)
  end.

(** [isinstance(x, DynaSettings)]: the reference and the instance behind
    it when it holds. *)
Definition as_DynaSettings (x : pyobj) : M (option (ref * DynaSettings)) :=
  match x with
  | PyRef r => o ← deref r; mret (pair r <$> o)
  | _ => mret None
  end.

(** [if self.detected_settings:] for provider classes with the truth
    value they inherit from [object]: an instance is true ([DynaSettings]
    defines neither [__bool__] nor [__len__]), [None] is not.  The test
    for subclasses that do define one is [slot_truth] below. *)
Definition detected_truthy (d : option ref) : bool :=
  match d with
  | Some _ => true
  | None => false
  end.

(** [env_settings_class.init_values()] on the heap object. *)
Definition init_values_at (r : ref) (o : DynaSettings) : M DynaSettings :=
  o' ← lift (init_values o);
  store r o';;
  mret o'.

Definition register (env_settings_class : pyobj) : M unit :=
  self ← get_self;
  match py_in env_settings_class (dyna_settings_classes self) with
  | Some r =>
      LOG (LOG_warning (Re_registering r));;
      raise (Exception (Re_registering r))
  | None =>
      (* Are we registering a class instance or a type? *)
      env_settings_class ←
        match env_settings_class with
        | PyType new => instantiate new
        | _ => mret env_settings_class
        end;
      (* Is this an instance? *)
      inst ← as_DynaSettings env_settings_class;
      match inst with
      | Some (r, o) =>
          det ← lift (env_detector o);
          (if truthy det then
             self ← get_self;
             (if detected_truthy (detected_settings self) then
                assign (set_did_find_multiple_matches true);;
                raise (Exception (Multiple_environment_checks_matched r))
              else mret tt);;
             (* Set this as our detected environment *)
             o' ← init_values_at r o;
             self ← get_self;
             (if negb (environ_vars_trump self) then
                assign (set_environ_vars_trump_field (environ_vars_trump_of o'))
              else mret tt);;
             assign (set_detected_settings (Some r))
           else mret tt);;
          (* Save each registered instance for posterity. *)
          self ← get_self;
          assign (set_dyna_settings_classes (dyna_settings_classes self ++ [r]))
      | None =>
          LOG (LOG_error_Not_a_type_of_DynaSettings env_settings_class)
      end
  end.

(** The same method when provider instances may be false: [truth r] is
    [bool] of the instance at [r], which a subclass decides with
    [__bool__] or [__len__].  The test at the occupied-slot check is
    Python's truth test, not a comparison with [None]. *)
Definition slot_truth (truth : ref -> bool) (d : option ref) : bool :=
  match d with
  | Some r => truth r
  | None => false
  end.

Definition register_under (truth : ref -> bool) (env_settings_class : pyobj)
  : M unit :=
  self ← get_self;
  match py_in env_settings_class (dyna_settings_classes self) with
  | Some r =>
      LOG (LOG_warning (Re_registering r));;
      raise (Exception (Re_registering r))
  | None =>
      env_settings_class ←
        match env_settings_class with
        | PyType new => instantiate new
        | _ => mret env_settings_class
        end;
      inst ← as_DynaSettings env_settings_class;
      match inst with
      | Some (r, o) =>
          det ← lift (env_detector o);
          (if truthy det then
             self ← get_self;
             (if slot_truth truth (detected_settings self) then
                assign (set_did_find_multiple_matches true);;
                raise (Exception (Multiple_environment_checks_matched r))
              else mret tt);;
             o' ← init_values_at r o;
             self ← get_self;
             (if negb (environ_vars_trump self) then
                assign (set_environ_vars_trump_field (environ_vars_trump_of o'))
              else mret tt);;
             assign (set_detected_settings (Some r))
           else mret tt);;
          self ← get_self;
          assign (set_dyna_settings_classes (dyna_settings_classes self ++ [r]))
      | None =>
          LOG (LOG_error_Not_a_type_of_DynaSettings env_settings_class)
      end
  end.

(** [DynaSettingsController.set_environ_vars_trump(flag=True)] *)
Definition set_environ_vars_trump (flag : bool) : M unit :=
  assign (set_environ_vars_trump_field flag).

(** [os.environ.get(setting_name)], as a value. *)
Definition os_environ_get (w : world) (setting_name : string) : pyval :=
  match os_environ w !! setting_name with
  | Some s => PyStr s
  | None => PyNone
  end.

Definition dyna_value (setting_name : string) (production_value : pyval) : M pyval :=
  fun w =>
  let self := controller w in
  (* Trump trumps *)
  if environ_vars_trump self && truthy (os_environ_get w setting_name) then
    (Ok (os_environ_get w setting_name), w)
  else if negb (detected_truthy (detected_settings self)) then
    if is_not_None production_value then (Ok production_value, w)
    else (Raise NoMatchingSettingsClass, w)
  else
    (* assert isinstance(self.detected_settings, DynaSettings) *)
    match detected_settings self ≫= (heap w !!.) with
    | None => (Raise AssertionError, w)
    | Some o =>
        match get_value (functions w) o setting_name production_value with
        | Ok val =>
            if environ_vars_trump self && negb (truthy val)
            then (Raise NoMatchingSettingsClass, w)
            else (Ok val, w)
        | Raise e => (Raise e, w)
        end
    end.

Definition reset : M unit :=
  assign (set_detected_settings None);;
  assign (set_dyna_settings_classes []);;
  assign (set_did_find_multiple_matches false);;
  assign (set_environ_vars_trump_field false).

(** ** Module-level functions on the one and only controller *)

Definition register_dyna_settings (class_name : pyobj) : M unit :=
  register class_name.

Definition dyna_values : M (option (gmap string pyval)) :=
  fun w =>
  match detected_settings (controller w) with
  | Some r => (Ok (all_settings <$> heap w !! r), w)
  | None => (Ok None, w)
  end.

(** A process that has just imported the module. *)
Definition fresh_world (fs : call_table) (env : gmap string string) : world :=
  {| controller := DynaSettingsController_init; heap := ∅; next_ref := 0;
     functions := fs; os_environ := env; log := [] |}.

(** * Properties *)

(** ** The error kinds of the specification

    The specification names error kinds, not exception classes.  Both
    exceptions that [register] raises are a plain [Exception], told apart
    by their message; the lookup error is [NoMatchingSettingsClass].
    The module also declares [MultipleSettingsClassMatch] and documents
    it as what a second match raises, but raises it nowhere:
    [MultipleMatch] below is what the code does raise. *)
Definition DuplicateRegistration (r : ref) : exn := Exception (Re_registering r).
Definition MultipleMatch (r : ref) : exn :=
  Exception (Multiple_environment_checks_matched r).
Definition NoMatch : exn := NoMatchingSettingsClass.

(** ** Vocabulary of the statements *)

(** The provider instance a [register] call works on, when there is one:
    the instance passed in, or the one the class passed in is
    instantiated to (which lands at the allocation pointer). *)
Definition provider_of (w : world) (x : pyobj) : option (ref * DynaSettings) :=
  match x with
  | PyRef r => pair r <$> heap w !! r
  | PyType (Ok (NewDynaSettings o)) => Some (next_ref w, o)
  | _ => None
  end.


(** The variable [setting_name] is not set, or set to the empty string. *)
Definition environ_unset (w : world) (setting_name : string) : Prop :=
  os_environ w !! setting_name = None \/ os_environ w !! setting_name = Some "".

(** A caller making one [register] call after the other, going on after a
    raise: the worlds after each call. *)
Fixpoint register_all (xs : list pyobj) (w : world) : list world :=
  match xs with
  | [] => []
  | x :: xs' => let w' := snd (register x w) in w' :: register_all xs' w'
  end.

(** The settings module constructing an instance: [Cls()]. *)
Definition construct (o : DynaSettings) (w : world) : world := snd (alloc o w).

(** ** Reachable worlds *)

(** The part of [register] that deals with a [DynaSettings] instance [o]
    found at [r]: detection, activation, and the append to the registry. *)
Definition register_instance (r : ref) (o : DynaSettings) : M unit :=
  det ← lift (env_detector o);
  (if truthy det then
     self ← get_self;
     (if detected_truthy (detected_settings self) then
        assign (set_did_find_multiple_matches true);;
        raise (Exception (Multiple_environment_checks_matched r))
      else mret tt);;
     o' ← init_values_at r o;
     self ← get_self;
     (if negb (environ_vars_trump self) then
        assign (set_environ_vars_trump_field (environ_vars_trump_of o'))
      else mret tt);;
     assign (set_detected_settings (Some r))
   else mret tt);;
  self ← get_self;
  assign (set_dyna_settings_classes (dyna_settings_classes self ++ [r])).

(** What a settings module does to the world, one step at a time: it
    constructs provider instances, registers objects (going on after a
    raise or not), toggles trump mode, and resets the controller.
    [dyna_value] and [dyna_values] leave the world as it is. *)
Inductive step : world -> world -> Prop :=
| step_construct (o : DynaSettings) (w : world) :
    step w (construct o w)
| step_register (x : pyobj) (w : world) :
    step w (snd (register x w))
| step_set_environ_vars_trump (flag : bool) (w : world) :
    step w (snd (set_environ_vars_trump flag w))
| step_reset (w : world) :
    step w (snd (reset w)).

Inductive reachable : world -> Prop :=
| reachable_fresh (fs : call_table) (env : gmap string string) :
    reachable (fresh_world fs env)
| reachable_step (w w' : world) :
    reachable w -> step w w' -> reachable w'.

(** The invariant of the controller: references are allocated below the
    allocation pointer, the registry holds live instances, the active
    provider is a registered one, and a registered provider whose
    detector is true is the active one. *)
Record invariant (w : world) : Prop := mkInvariant {
  inv_allocated : forall r : ref, is_Some (heap w !! r) -> r < next_ref w;
  inv_registry : forall r : ref,
      r ∈ dyna_settings_classes (controller w) -> is_Some (heap w !! r);
  inv_active : forall p : ref,
      detected_settings (controller w) = Some p ->
      p ∈ dyna_settings_classes (controller w);
  inv_exclusive : forall (r : ref) (o : DynaSettings) (v : pyval),
      r ∈ dyna_settings_classes (controller w) ->
      heap w !! r = Some o ->
      env_detector o = Ok v ->
      truthy v = true ->
      detected_settings (controller w) = Some r
}.

(** ** Worlds that [register] and the process produce *)

(** The instance [o] after [init_values()] when [value_dict()] returned
    [d]. *)
Definition initialised (d : gmap string pyval) (o : DynaSettings) : DynaSettings :=
  {| env_detector := env_detector o; value_dict := value_dict o;
     _value_dict := d ∪ _value_dict o;
     _environ_vars_trump := _environ_vars_trump o |}.

(** The world once the instance [o] at [r] has become the active
    provider: it is initialised in place, its wish for trump mode is
    merged into the controller's flag, it fills the slot and ends the
    registry list. *)
Definition activated (r : ref) (o : DynaSettings) (d : gmap string pyval)
    (w : world) : world :=
  with_controller
    {| dyna_settings_classes := dyna_settings_classes (controller w) ++ [r];
       detected_settings := Some r;
       did_find_multiple_matches := did_find_multiple_matches (controller w);
       environ_vars_trump :=
         environ_vars_trump (controller w) || _environ_vars_trump o |}
    (with_heap (<[r := initialised d o]> (heap w)) (next_ref w) w).


(** The same process under another environment block. *)
Definition with_os_environ (env : gmap string string) (w : world) : world :=
  {| controller := controller w; heap := heap w; next_ref := next_ref w;
     functions := functions w; os_environ := env; log := log w |}.

(** What [get_value] makes of a mapping [m]. *)
Definition looked_up (call : call_table) (m : gmap string pyval)
    (setting_name : string) (production_value : pyval) : result pyval :=
  match m !! setting_name with
  | Some val =>
      if is_FunctionType val then py_call call val production_value else Ok val
  | None => Ok production_value
  end.

(** How a provider can fail in the middle of its registration: its
    detector raises, or it matches an empty slot and [value_dict()]
    raises. *)
Definition provider_raises (o : DynaSettings) (w : world) (e : exn) : Prop :=
  env_detector o = Raise e \/
  (exists v : pyval,
      env_detector o = Ok v /\ truthy v = true /\
      detected_settings (controller w) = None /\
      value_dict o = Raise e).

(** ** Statements of the specification that the code does not meet *)

(** "Calling register a second time with the identical instance raises
    DuplicateRegistration regardless of what its detection predicate
    returned, and changes no controller state." *)
Definition register_twice_always_duplicate : Prop :=
  forall (w : world) (r : ref) (o : DynaSettings),
    heap w !! r = Some o ->
    let w1 := snd (register (PyRef r) w) in
    fst (register (PyRef r) w1) = Raise (DuplicateRegistration r) /\
    controller (snd (register (PyRef r) w1)) = controller w1.



(** "When the name is present and the stored entry is a callable, [get]
    returns the result of invoking that callable with the fallback passed
    as [production_value]." *)
Definition get_value_invokes_every_callable : Prop :=
  forall (call : call_table) (self0 self : DynaSettings)
         (setting_name : string) (production_value v : pyval),
    init_values self0 = Ok self ->
    _value_dict self !! setting_name = Some v ->
    callable v = true ->
    get_value call self setting_name production_value
    = py_call call v production_value.

(** ** A settings module *)

Module Scenario.

(** Function object 0 is
    [lambda production_value: 'secret-' + production_value]; object 1 is
    a bound method of the provider doing the same; there are no other
    function objects. *)
Definition fs : call_table := fun f v =>
  match f, v with
  | 0, PyStr s | 1, PyStr s => Ok (PyStr ("secret-" ++ s))
  | _, _ => Raise (Raised "TypeError")
  end.

Definition env : gmap string string := {[ "HOST" := "10.0.0.9" ]}.

(** Two developer boxes that both recognise the current machine, and a
    test server that does not. *)
Definition KristineDevSettings : DynaSettings :=
  DynaSettings_init (Ok (PyBool true))
    (Ok (<["HOST" := PyStr "192.168.56.101"]>
         (<["SECRET" := PyFunction 0]>
          (<["DBPort" := PyStr ""]> ∅))))
    false.

Definition LeeDevSettings : DynaSettings :=
  DynaSettings_init (Ok (PyBool true))
    (Ok (<["HOST" := PyStr "127.0.0.1"]> ∅)) true.

Definition TestServerSettings : DynaSettings :=
  DynaSettings_init (Ok (PyBool false))
    (Ok (<["HOST" := PyStr "10.1.1.1"]> ∅)) false.

(** A provider whose [value_dict()] holds its own bound method, as
    constructed and after [init_values()]. *)
Definition MethodSettings : DynaSettings :=
  DynaSettings_init (Ok (PyBool true))
    (Ok (<["SECRET" := PyCallable 1]> ∅)) false.

Definition method_settings : DynaSettings :=
  match init_values MethodSettings with
  | Ok o => o
  | Raise _ => MethodSettings
  end.

(** The three instances are constructed: references 0, 1 and 2. *)
Definition w_start : world :=
  construct TestServerSettings
    (construct LeeDevSettings
       (construct KristineDevSettings (fresh_world fs env))).

(** [register_dyna_settings(kristine)] *)
Definition w_kristine : world := snd (register (PyRef 0) w_start).

(** Kristine's instance once it is the active provider. *)
Definition kristine : DynaSettings :=
  default KristineDevSettings (heap w_kristine !! 0).

(** ... then [register_dyna_settings(lee)], which raises. *)
Definition w_lee : world := snd (register (PyRef 1) w_kristine).

(** The truth values of the instances when Kristine's class defines
    [__len__] and her instance has length 0: instance 0 is false. *)
Definition kristine_false : ref -> bool := fun r => negb (Nat.eqb r 0).

(** ... or [DynaSettingsController.set_environ_vars_trump()] instead. *)
Definition w_trump : world := snd (set_environ_vars_trump true w_kristine).

(** Trump mode on a controller without a provider. *)
Definition w_trump_only : world := snd (set_environ_vars_trump true w_start).

End Scenario.

(** ** Running the monad *)

Ltac unfold_M :=
  unfold register_dyna_settings, register, register_instance, reset,
    set_environ_vars_trump, construct, init_values_at, as_DynaSettings,
    instantiate, assign, LOG, alloc, store, deref, set_self, get_self,
    lift, raise, mbind, mret, M_bind, M_ret.

Ltac run := unfold_M; simpl.

(** The membership test of [register], both ways. *)
Lemma py_in_ref_elem (r : ref) (l : list ref) :
  r ∈ l -> py_in (PyRef r) l = Some r.
Proof. intros Hin. unfold py_in. by rewrite bool_decide_eq_true_2. Qed.

Lemma py_in_ref_not_elem (r : ref) (l : list ref) :
  r ∉ l -> py_in (PyRef r) l = None.
Proof. intros Hin. unfold py_in. by rewrite bool_decide_eq_false_2. Qed.

Lemma py_in_Some (x : pyobj) (l : list ref) (r : ref) :
  py_in x l = Some r -> x = PyRef r /\ r ∈ l.
Proof.
  destruct x as [r'| |]; simpl; try discriminate.
  case_bool_decide; [|discriminate]. intros [= ->]. done.
Qed.

(** ** What [register] never touches *)

(** [register] replaces neither the function objects nor [os.environ]. *)
Lemma register_functions (x : pyobj) (w : world) :
  functions (snd (register x w)) = functions w.
Proof. run. repeat case_match; simplify_eq/=; done. Qed.

Lemma register_os_environ (x : pyobj) (w : world) :
  os_environ (snd (register x w)) = os_environ w.
Proof. run. repeat case_match; simplify_eq/=; done. Qed.

(** An occupied active-provider slot survives every [register] call. *)
Lemma register_detected_kept (x : pyobj) (w : world) (p : ref) :
  detected_settings (controller w) = Some p ->
  detected_settings (controller (snd (register x w))) = Some p.
Proof.
  intros Hp. run.
  repeat case_match; simplify_eq/=; try done;
    rewrite ?Hp in *; simplify_eq/=; done.
Qed.

(** The trump flag is never cleared by [register]. *)
Lemma register_trump_kept (x : pyobj) (w : world) :
  environ_vars_trump (controller w) = true ->
  environ_vars_trump (controller (snd (register x w))) = true.
Proof.
  intros Ht. run.
  repeat case_match; simplify_eq/=; try done;
    rewrite ?Ht in *; simplify_eq/=; done.
Qed.

(** A registered instance is refused before anything else is looked at. *)
Lemma register_registered (w : world) (r : ref) :
  r ∈ dyna_settings_classes (controller w) ->
  register (PyRef r) w
  = (Raise (DuplicateRegistration r),
     with_log (log w ++ [LOG_warning (Re_registering r)]) w).
Proof.
  intros Hin. unfold_M.
  rewrite (py_in_ref_elem _ _ Hin). reflexivity.
Qed.

(** A [register] call on an instance that returns has appended it. *)
Lemma register_returns_registered (w : world) (r : ref) (o : DynaSettings) :
  heap w !! r = Some o ->
  fst (register (PyRef r) w) = Ok tt ->
  r ∈ dyna_settings_classes (controller (snd (register (PyRef r) w))).
Proof.
  intros Ho. unfold_M. unfold py_in.
  case_bool_decide; [discriminate|]. rewrite Ho. cbn.
  repeat case_match; simplify_eq/=; try done;
    intros _; apply elem_of_app; right; by apply list_elem_of_singleton.
Qed.


(** ** The invariant of reachable worlds *)

(** [register] on an instance that is not registered yet, and on a class
    of providers, in terms of [register_instance]. *)
Lemma register_PyRef (w : world) (r : ref) (o : DynaSettings) :
  r ∉ dyna_settings_classes (controller w) ->
  heap w !! r = Some o ->
  register (PyRef r) w = register_instance r o w.
Proof.
  intros Hnew Ho. unfold register, mbind, M_bind, get_self.
  rewrite (py_in_ref_not_elem _ _ Hnew).
  unfold mret, M_ret, as_DynaSettings, deref, mbind, M_bind.
  rewrite Ho. reflexivity.
Qed.

Lemma register_PyType (w : world) (o : DynaSettings) :
  register (PyType (Ok (NewDynaSettings o))) w
  = register_instance (next_ref w) o (construct o w).
Proof.
  unfold register, mbind, M_bind, get_self. simpl.
  unfold alloc, mret, M_ret, deref, construct. simpl.
  rewrite lookup_insert_eq. reflexivity.
Qed.

Lemma invariant_fresh (fs : call_table) (env : gmap string string) :
  invariant (fresh_world fs env).
Proof.
  split; simpl.
  - intros r [o Ho]. by rewrite lookup_empty in Ho.
  - intros r Hr. by apply elem_of_nil in Hr.
  - discriminate.
  - intros r o v Hr. by apply elem_of_nil in Hr.
Qed.

Lemma invariant_construct (o : DynaSettings) (w : world) :
  invariant w -> invariant (construct o w).
Proof.
  intros [Ha Hb Hc Hd]. split; simpl.
  - intros r [o' Ho']. destruct (decide (next_ref w = r)) as [<- | Hne].
    + lia.
    + rewrite lookup_insert_ne in Ho' by done.
      assert (r < next_ref w) by (apply Ha; eauto). lia.
  - intros r Hr. destruct (decide (next_ref w = r)) as [<- | Hne].
    + rewrite lookup_insert_eq. eauto.
    + rewrite lookup_insert_ne by done. by apply Hb.
  - exact Hc.
  - intros r o' v Hr Ho'. apply (Hd r o' v Hr).
    rewrite lookup_insert_ne in Ho'; [done|].
    intros <-. specialize (Ha _ (Hb _ Hr)). lia.
Qed.

Lemma invariant_with_log (l : list log_record) (w : world) :
  invariant w -> invariant (with_log l w).
Proof. intros [Ha Hb Hc Hd]. split; simpl; assumption. Qed.

Lemma invariant_set_environ_vars_trump (flag : bool) (w : world) :
  invariant w -> invariant (snd (set_environ_vars_trump flag w)).
Proof. intros [Ha Hb Hc Hd]. split; simpl; assumption. Qed.

Lemma invariant_reset (w : world) :
  invariant w -> invariant (snd (reset w)).
Proof.
  intros [Ha _ _ _]. split; simpl.
  - exact Ha.
  - intros r Hr. by apply elem_of_nil in Hr.
  - discriminate.
  - intros r o v Hr. by apply elem_of_nil in Hr.
Qed.

(** The instance block keeps the invariant, for an instance that is on
    the heap and not in the registry. *)
Lemma invariant_register_instance (r : ref) (o : DynaSettings) (w : world) :
  invariant w ->
  heap w !! r = Some o ->
  r ∉ dyna_settings_classes (controller w) ->
  invariant (snd (register_instance r o w)).
Proof.
  intros Hinv Ho Hnew. pose proof Hinv as [Ha Hb Hc Hd].
  unfold register_instance, mbind, M_bind, lift.
  destruct (env_detector o) as [det | e] eqn:Hdet; [|exact Hinv].
  destruct (truthy det) eqn:Htruthy.
  - (* the detector matched *)
    cbn. destruct (detected_settings (controller w)) as [p|] eqn:Hp; cbn.
    + (* a provider is active already: the flag is set, nothing else *)
      split; simpl; rewrite ?Hp; assumption.
    + unfold init_values_at, mbind, M_bind, lift.
      destruct (init_values o) as [o' | e] eqn:Hinit; [|exact Hinv].
      assert (Hdet' : env_detector o' = env_detector o).
      { unfold init_values in Hinit.
        destruct (value_dict o); [|discriminate]. by injection Hinit as <-. }
      run. destruct (environ_vars_trump (controller w)); simpl.
      all: split; simpl.
      all: try (intros r' [o'' Ho'']; apply Ha;
                destruct (decide (r = r')) as [<- | Hne];
                [eauto | by rewrite lookup_insert_ne in Ho'' by done; eauto]).
      all: try (intros r' Hr'; apply elem_of_app in Hr' as [Hr' | Hr'];
                [ destruct (decide (r = r')) as [<- | Hne];
                  [by rewrite lookup_insert_eq
                  | rewrite lookup_insert_ne by done; by apply Hb]
                | apply list_elem_of_singleton in Hr' as ->;
                  by rewrite lookup_insert_eq ]).
      all: try (intros p [= <-]; apply elem_of_app; right;
                by apply list_elem_of_singleton).
      all: intros r' o'' v Hr' Ho'' Hv Htrue;
        apply elem_of_app in Hr' as [Hr' | Hr'];
        [ exfalso; assert (r <> r') by (intros <-; contradiction);
          rewrite lookup_insert_ne in Ho'' by done;
          by specialize (Hd r' o'' v Hr' Ho'' Hv Htrue)
        | by apply list_elem_of_singleton in Hr' as -> ].
  - (* the detector did not match: the instance is only recorded *)
    run. split; simpl.
    + exact Ha.
    + intros r' Hr'. apply elem_of_app in Hr' as [Hr' | Hr'].
      * by apply Hb.
      * apply list_elem_of_singleton in Hr' as ->. eauto.
    + intros p Hp. apply elem_of_app. left. by apply Hc.
    + intros r' o'' v Hr' Ho'' Hv Htrue.
      apply elem_of_app in Hr' as [Hr' | Hr'].
      * by apply (Hd r' o'' v).
      * apply list_elem_of_singleton in Hr' as ->.
        rewrite Ho in Ho''. injection Ho'' as <-.
        rewrite Hdet in Hv. injection Hv as <-. congruence.
Qed.

Lemma invariant_register (x : pyobj) (w : world) :
  invariant w -> invariant (snd (register x w)).
Proof.
  intros Hinv.
  destruct (py_in x (dyna_settings_classes (controller w))) as [r|] eqn:Hin.
  - (* registered already *)
    apply py_in_Some in Hin as [-> Hin].
    rewrite (register_registered _ _ Hin). by apply invariant_with_log.
  - destruct x as [r | [[o | v] | e] | v].
    + (* an instance, or a reference to nothing *)
      assert (Hnew : r ∉ dyna_settings_classes (controller w)).
      { intros Hr. by rewrite (py_in_ref_elem _ _ Hr) in Hin. }
      destruct (heap w !! r) as [o|] eqn:Ho.
      * rewrite (register_PyRef _ _ o Hnew Ho).
        by apply invariant_register_instance.
      * unfold_M. rewrite Hin, Ho. by apply invariant_with_log.
    + (* a class of providers *)
      rewrite register_PyType.
      pose proof Hinv as [Ha Hb _ _].
      apply invariant_register_instance.
      * by apply invariant_construct.
      * unfold construct, alloc. simpl. apply lookup_insert_eq.
      * unfold construct, alloc. simpl. intros Hr.
        specialize (Ha _ (Hb _ Hr)). lia.
    + run. by apply invariant_with_log.
    + run. exact Hinv.
    + run. by apply invariant_with_log.
Qed.

Lemma invariant_step (w w' : world) :
  invariant w -> step w w' -> invariant w'.
Proof.
  intros Hinv Hstep. destruct Hstep.
  - by apply invariant_construct.
  - by apply invariant_register.
  - by apply invariant_set_environ_vars_trump.
  - by apply invariant_reset.
Qed.

Lemma invariant_reachable (w : world) : reachable w -> invariant w.
Proof.
  induction 1 as [fs env | w w' _ IH Hstep].
  - apply invariant_fresh.
  - exact (invariant_step w w' IH Hstep).
Qed.

(** The active provider of a reachable world is a live instance, so the
    assertion in [dyna_value] does not fail. *)
Lemma active_is_live (w : world) (p : ref) :
  reachable w ->
  detected_settings (controller w) = Some p ->
  is_Some (heap w !! p).
Proof.
  intros Hw Hp. pose proof (invariant_reachable w Hw) as [_ Hb Hc _].
  apply Hb, Hc, Hp.
Qed.

(** The double-match flag is sticky under [register]. *)
Lemma register_did_find_kept (x : pyobj) (w : world) :
  did_find_multiple_matches (controller w) = true ->
  did_find_multiple_matches (controller (snd (register x w))) = true.
Proof.
  intros Hf. run.
  repeat case_match; simplify_eq/=; try done;
    rewrite ?Hf in *; simplify_eq/=; done.
Qed.

(** The scenario's worlds are reachable. *)
Lemma reachable_w_start : reachable Scenario.w_start.
Proof.
  unfold Scenario.w_start.
  repeat (eapply reachable_step; [|apply step_construct]).
  apply reachable_fresh.
Qed.

Lemma reachable_w_lee : reachable Scenario.w_lee.
Proof.
  unfold Scenario.w_lee, Scenario.w_kristine.
  repeat (eapply reachable_step; [|apply step_register]).
  apply reachable_w_start.
Qed.
(** ** Registration *)

(** With the truth value every instance inherits from [object],
    [register_under] is [register]. *)
Lemma register_under_default (x : pyobj) (w : world) :
  register_under (fun _ => true) x w = register x w.
Proof. reflexivity. Qed.

(** While the slot is occupied and its occupant counts as true,
    registering a further provider (an instance that is not in the
    registry yet, or a class) whose [env_detector()] returns a true value
    raises the multiple-match [Exception], sets
    [did_find_multiple_matches], which later [register] calls leave set,
    and leaves the occupant, the registry and the trump flag as they
    were. *)
Lemma register_second_match_raises
    (w : world) (p q : ref) (Q : pyobj) (o : DynaSettings) (v : pyval) :
  detected_settings (controller w) = Some p ->
  py_in Q (dyna_settings_classes (controller w)) = None ->
  provider_of w Q = Some (q, o) ->
  env_detector o = Ok v ->
  truthy v = true ->
  fst (register Q w) = Raise (MultipleMatch q) /\
  did_find_multiple_matches (controller (snd (register Q w))) = true /\
  detected_settings (controller (snd (register Q w))) = Some p /\
  dyna_settings_classes (controller (snd (register Q w)))
  = dyna_settings_classes (controller w) /\
  environ_vars_trump (controller (snd (register Q w)))
  = environ_vars_trump (controller w) /\
  (forall x : pyobj,
      did_find_multiple_matches
        (controller (snd (register x (snd (register Q w))))) = true) /\
  (forall x : pyobj,
      detected_settings (controller (snd (register x w))) = Some p).
Proof.
  intros Hp Hnew HQ Hdet Htrue.
  cut (fst (register Q w) = Raise (MultipleMatch q) /\
       did_find_multiple_matches (controller (snd (register Q w))) = true /\
       detected_settings (controller (snd (register Q w))) = Some p /\
       dyna_settings_classes (controller (snd (register Q w)))
       = dyna_settings_classes (controller w) /\
       environ_vars_trump (controller (snd (register Q w)))
       = environ_vars_trump (controller w) /\
       (forall x : pyobj,
           detected_settings (controller (snd (register x w))) = Some p)).
  { intros (H1 & H2 & H3 & H4 & H5 & H6). repeat split; try done.
    intros x. by apply register_did_find_kept. }
  assert (Hall : forall x : pyobj,
             detected_settings (controller (snd (register x w))) = Some p)
    by (intros x; by apply register_detected_kept).
  destruct Q as [r | [[o' | v'] | e] | v']; simpl in HQ; try discriminate.
  - (* an instance *)
    destruct (heap w !! r) as [o'|] eqn:Hr; simpl in HQ; [|discriminate].
    injection HQ as -> ->.
    unfold_M. rewrite Hnew, Hr. cbn.
    rewrite Hdet, Htrue, Hp. cbn.
    repeat split; done.
  - (* a class, instantiated first *)
    injection HQ as <- ->.
    unfold_M. cbn. rewrite lookup_insert_eq. cbn.
    rewrite Hdet. cbn. rewrite Htrue. cbn. rewrite Hp. cbn.
    repeat split; done.
Qed.

(** C1.  The code at the two inputs where it parts from the refusal of a
    second match that the module documents.  With Kristine's provider
    active, registering Lee's, whose detector is true as well, raises a
    plain [Exception] and not the [MultipleSettingsClassMatch] that the
    module declares and documents for this case; the flag is set and
    Kristine's provider stays.  When Kristine's instance is false
    (her class defines [__len__], say), the truth test on the slot fails:
    the same call returns normally, sets no flag, and Lee's provider
    replaces hers as the active one, both now in the registry. *)
Theorem register_second_match_defects :
  fst (register (PyRef 1) Scenario.w_kristine)
  = Raise (Exception (Multiple_environment_checks_matched 1)) /\
  fst (register (PyRef 1) Scenario.w_kristine)
  <> Raise MultipleSettingsClassMatch /\
  did_find_multiple_matches (controller Scenario.w_lee) = true /\
  detected_settings (controller Scenario.w_lee) = Some 0 /\
  register_under Scenario.kristine_false (PyRef 0) Scenario.w_start
  = (Ok tt, Scenario.w_kristine) /\
  fst (register_under Scenario.kristine_false (PyRef 1) Scenario.w_kristine)
  = Ok tt /\
  controller
    (snd (register_under Scenario.kristine_false (PyRef 1) Scenario.w_kristine))
  = {| dyna_settings_classes := [0; 1];
       detected_settings := Some 1;
       did_find_multiple_matches := false;
       environ_vars_trump := true |}.
Proof.
  split; [vm_compute; reflexivity|].
  split; [intros H; vm_compute in H; discriminate H|].
  repeat split; vm_compute; reflexivity.
Qed.

(** C2 as stated fails: once Kristine's provider is active, registering
    Lee's (whose detector is true as well) raises MultipleMatch before the
    instance is appended to the registry, so registering the identical
    instance a second time raises MultipleMatch again, not
    DuplicateRegistration. *)
Lemma register_twice_multiple_match :
  fst (register (PyRef 1) Scenario.w_kristine) = Raise (MultipleMatch 1) /\
  fst (register (PyRef 1) Scenario.w_lee) = Raise (MultipleMatch 1) /\
  ~ register_twice_always_duplicate.
Proof.
  split; [vm_compute; reflexivity|].
  split; [vm_compute; reflexivity|].
  intros Hstated.
  destruct (Hstated Scenario.w_kristine 1
              (DynaSettings_init (Ok (PyBool true))
                 (Ok (<["HOST" := PyStr "127.0.0.1"]> ∅)) true))
    as [Hdup _]; [vm_compute; reflexivity|].
  vm_compute in Hdup. discriminate Hdup.
Qed.

(** C2, amended.  When a [register] call with a provider instance has
    returned normally, calling [register] again with the identical
    instance raises the DuplicateRegistration error, whatever its
    detector returns; the failed call logs a warning and changes nothing
    else: controller (active provider, registry list, double-match flag,
    trump flag) and heap are as before. *)
Theorem register_twice (w : world) (r : ref) (o : DynaSettings) :
  heap w !! r = Some o ->
  fst (register (PyRef r) w) = Ok tt ->
  register (PyRef r) (snd (register (PyRef r) w))
  = (Raise (DuplicateRegistration r),
     with_log (log (snd (register (PyRef r) w))
               ++ [LOG_warning (Re_registering r)])
       (snd (register (PyRef r) w))) /\
  controller (snd (register (PyRef r) (snd (register (PyRef r) w))))
  = controller (snd (register (PyRef r) w)) /\
  heap (snd (register (PyRef r) (snd (register (PyRef r) w))))
  = heap (snd (register (PyRef r) w)).
Proof.
  intros Ho Hret.
  pose proof (register_returns_registered w r o Ho Hret) as Hin.
  rewrite (register_registered _ _ Hin). done.
Qed.

Lemma register_twice_witness :
  fst (register (PyRef 2) Scenario.w_kristine) = Ok tt /\
  fst (register (PyRef 2) (snd (register (PyRef 2) Scenario.w_kristine)))
  = Raise (DuplicateRegistration 2).
Proof.
  split; [vm_compute; reflexivity|].
  destruct (register_twice Scenario.w_kristine 2
              (DynaSettings_init (Ok (PyBool false))
                 (Ok (<["HOST" := PyStr "10.1.1.1"]> ∅)) false))
    as (Heq & _ & _); [vm_compute; reflexivity .. |].
  rewrite Heq. reflexivity.
Defined.




(** C7.  Once [environ_vars_trump] is true it is true after every
    [register] call of every sequence of calls, whatever is registered
    and whether the calls return or raise. *)
Theorem environ_vars_trump_monotone (xs : list pyobj) (w : world) :
  environ_vars_trump (controller w) = true ->
  Forall (fun w' => environ_vars_trump (controller w') = true)
         (register_all xs w).
Proof.
  revert w. induction xs as [| x xs IH]; intros w Ht; simpl.
  - constructor.
  - constructor.
    + by apply register_trump_kept.
    + apply IH. by apply register_trump_kept.
Qed.

Lemma environ_vars_trump_monotone_witness :
  Forall (fun w' => environ_vars_trump (controller w') = true)
         (register_all [PyRef 2; PyRef 1; PyVal PyNone] Scenario.w_trump).
Proof.
  apply (environ_vars_trump_monotone [PyRef 2; PyRef 1; PyVal PyNone]
           Scenario.w_trump).
  vm_compute. reflexivity.
Defined.

(** ** Reset *)

(** C8.  [reset] returns and leaves the controller exactly as
    [__init__] builds it (no active provider, empty registry list,
    double-match flag false, trump flag false), so [register] and
    [dyna_value] behave after it as they do on a fresh controller in the
    same process. *)
Theorem reset_fresh (w : world) :
  reset w = (Ok tt, with_controller DynaSettingsController_init w) /\
  controller (snd (reset w)) = DynaSettingsController_init /\
  detected_settings (controller (snd (reset w))) = None /\
  dyna_settings_classes (controller (snd (reset w))) = [] /\
  did_find_multiple_matches (controller (snd (reset w))) = false /\
  environ_vars_trump (controller (snd (reset w))) = false /\
  (forall x : pyobj,
      register x (snd (reset w))
      = register x (with_controller DynaSettingsController_init w)) /\
  (forall (setting_name : string) (production_value : pyval),
      dyna_value setting_name production_value (snd (reset w))
      = dyna_value setting_name production_value
          (with_controller DynaSettingsController_init w)).
Proof.
  assert (Hreset : reset w = (Ok tt, with_controller DynaSettingsController_init w))
    by (run; reflexivity).
  rewrite Hreset. simpl. repeat split; done.
Qed.

(** ** The provider's lookup *)

(** C4 as stated fails: a mapping entry that is callable without being a
    plain function (here the provider's bound method, object 1) is not
    invoked; [get_value] hands back the method object itself. *)
Lemma get_value_bound_method_not_invoked :
  init_values Scenario.MethodSettings = Ok Scenario.method_settings /\
  get_value Scenario.fs Scenario.method_settings "SECRET" (PyStr "abc")
  = Ok (PyCallable 1) /\
  py_call Scenario.fs (PyCallable 1) (PyStr "abc") = Ok (PyStr "secret-abc") /\
  ~ get_value_invokes_every_callable.
Proof.
  split; [vm_compute; reflexivity|].
  split; [vm_compute; reflexivity|].
  split; [vm_compute; reflexivity|].
  intros Hstated.
  specialize (Hstated Scenario.fs Scenario.MethodSettings
                Scenario.method_settings "SECRET"
                (PyStr "abc") (PyCallable 1)).
  assert (Hget : get_value Scenario.fs Scenario.method_settings "SECRET"
                   (PyStr "abc")
                 = py_call Scenario.fs (PyCallable 1) (PyStr "abc"))
    by (apply Hstated; vm_compute; reflexivity).
  vm_compute in Hget. discriminate Hget.
Qed.

(** C4, amended.  For every provider, setting name and production value:
    [get_value] returns the production value unchanged when the name is
    not in the mapping; when the stored entry is a plain function
    ([types.FunctionType]), the outcome of calling it with
    [production_value=production_value]; and the stored entry itself
    otherwise, other callables included. *)
Theorem get_value_cases
    (call : call_table) (self : DynaSettings)
    (setting_name : string) (production_value : pyval) :
  (_value_dict self !! setting_name = None ->
   get_value call self setting_name production_value = Ok production_value) /\
  (forall val : pyval,
      _value_dict self !! setting_name = Some val ->
      is_FunctionType val = true ->
      get_value call self setting_name production_value
      = py_call call val production_value) /\
  (forall val : pyval,
      _value_dict self !! setting_name = Some val ->
      is_FunctionType val = false ->
      get_value call self setting_name production_value = Ok val).
Proof.
  unfold get_value. repeat split.
  - intros ->. reflexivity.
  - intros val -> ->. reflexivity.
  - intros val -> ->. reflexivity.
Qed.

(** The mapping an initialised provider looks names up in: what
    [value_dict()] returned, over whatever the instance held before. *)
Lemma init_values_lookup (self self' : DynaSettings) (d : gmap string pyval)
    (setting_name : string) :
  value_dict self = Ok d ->
  init_values self = Ok self' ->
  _value_dict self' !! setting_name
  = match d !! setting_name with
    | Some val => Some val
    | None => _value_dict self !! setting_name
    end.
Proof.
  unfold init_values. intros -> [= <-]. simpl.
  rewrite lookup_union. by destruct (d !! setting_name), (_value_dict self !! _).
Qed.

Lemma get_value_cases_witness :
  get_value Scenario.fs Scenario.kristine "PORT" (PyInt 80) = Ok (PyInt 80) /\
  get_value Scenario.fs Scenario.kristine "SECRET" (PyStr "abc")
  = Ok (PyStr "secret-abc") /\
  get_value Scenario.fs Scenario.kristine "HOST" (PyStr "127.0.0.1")
  = Ok (PyStr "192.168.56.101").
Proof.
  destruct (get_value_cases Scenario.fs Scenario.kristine "PORT" (PyInt 80))
    as (Habsent & _ & _).
  destruct (get_value_cases Scenario.fs Scenario.kristine "SECRET"
              (PyStr "abc")) as (_ & Hfunction & _).
  destruct (get_value_cases Scenario.fs Scenario.kristine "HOST"
              (PyStr "127.0.0.1")) as (_ & _ & Hvalue).
  split; [apply Habsent; vm_compute; reflexivity|].
  split.
  - rewrite (Hfunction (PyFunction 0)); vm_compute; reflexivity.
  - apply Hvalue; vm_compute; reflexivity.
Defined.

(** ** Resolution *)

(** C3.  Without an active provider and with trump mode off,
    [dyna_value] returns the production value whenever it is not [None]
    (so in particular whenever it is a true value), and raises NoMatch
    when it is [None]; the world is left as it was. *)
Theorem dyna_value_no_provider
    (w : world) (setting_name : string) (production_value : pyval) :
  detected_settings (controller w) = None ->
  environ_vars_trump (controller w) = false ->
  (production_value <> PyNone ->
   dyna_value setting_name production_value w = (Ok production_value, w)) /\
  (truthy production_value = true ->
   dyna_value setting_name production_value w = (Ok production_value, w)) /\
  (production_value = PyNone ->
   dyna_value setting_name production_value w = (Raise NoMatch, w)).
Proof.
  intros Hnone Hoff. unfold dyna_value. rewrite Hnone, Hoff. simpl.
  repeat split.
  - intros Hv. by destruct production_value.
  - intros Hv. by destruct production_value.
  - intros ->. reflexivity.
Qed.

Lemma dyna_value_no_provider_witness :
  dyna_value "DBServer" (PyStr "127.0.0.1") Scenario.w_start
  = (Ok (PyStr "127.0.0.1"), Scenario.w_start) /\
  dyna_value "ADMIN_LOGIN" PyNone Scenario.w_start
  = (Raise NoMatch, Scenario.w_start).
Proof.
  destruct (dyna_value_no_provider Scenario.w_start "DBServer"
              (PyStr "127.0.0.1")) as (Hret & _ & _);
    [vm_compute; reflexivity .. |].
  destruct (dyna_value_no_provider Scenario.w_start "ADMIN_LOGIN" PyNone)
    as (_ & _ & Hraise);
    [vm_compute; reflexivity .. |].
  split; [apply Hret; discriminate | apply Hraise; reflexivity].
Defined.

(** C5.  With trump mode on and the environment variable of that name
    set to a non-empty string, [dyna_value] returns that string, whatever
    the active provider (if any) and the production value are. *)
Theorem dyna_value_trump
    (w : world) (setting_name : string) (production_value : pyval) (s : string) :
  environ_vars_trump (controller w) = true ->
  os_environ w !! setting_name = Some s ->
  s <> "" ->
  dyna_value setting_name production_value w = (Ok (PyStr s), w).
Proof.
  intros Hon Hs Hne. unfold dyna_value, os_environ_get. rewrite Hon, Hs. simpl.
  destruct (String.eqb_spec s ""); [contradiction | reflexivity].
Qed.

Lemma dyna_value_trump_witness :
  dyna_value "HOST" (PyStr "anything") Scenario.w_kristine
  = (Ok (PyStr "192.168.56.101"), Scenario.w_kristine) /\
  dyna_value "HOST" (PyStr "anything") Scenario.w_trump
  = (Ok (PyStr "10.0.0.9"), Scenario.w_trump).
Proof.
  split; [vm_compute; reflexivity|].
  apply (dyna_value_trump Scenario.w_trump "HOST" (PyStr "anything") "10.0.0.9").
  - vm_compute. reflexivity.
  - vm_compute. reflexivity.
  - discriminate.
Defined.



(** C10.  With trump mode on, the environment variable unset or empty,
    and no active provider, [dyna_value] returns the production value
    whenever it is not [None], the empty string and the other false
    values included: the NoMatch-on-empty rule of trump mode is not
    applied on this path. *)
Theorem dyna_value_trump_no_provider
    (w : world) (setting_name : string) (production_value : pyval) :
  environ_vars_trump (controller w) = true ->
  environ_unset w setting_name ->
  detected_settings (controller w) = None ->
  production_value <> PyNone ->
  dyna_value setting_name production_value w = (Ok production_value, w).
Proof.
  intros Hon Hunset Hnone Hv.
  unfold dyna_value, os_environ_get. rewrite Hon, Hnone. simpl.
  destruct Hunset as [-> | ->]; simpl; by destruct production_value.
Qed.

Lemma dyna_value_trump_no_provider_witness :
  dyna_value "DBPort" (PyStr "") Scenario.w_trump_only
  = (Ok (PyStr ""), Scenario.w_trump_only).
Proof.
  apply (dyna_value_trump_no_provider Scenario.w_trump_only "DBPort" (PyStr "")).
  - vm_compute. reflexivity.
  - left. vm_compute. reflexivity.
  - vm_compute. reflexivity.
  - discriminate.
Defined.

(** * Further properties of the module *)

(** ** Registration, path by path *)

Lemma register_instance_match
    (r : ref) (o : DynaSettings) (w : world) (v : pyval) (d : gmap string pyval) :
  env_detector o = Ok v ->
  truthy v = true ->
  detected_settings (controller w) = None ->
  value_dict o = Ok d ->
  register_instance r o w = (Ok tt, activated r o d w).
Proof.
  intros Hdet Htrue Hnone Hd.
  destruct o as [det vals m t]. simpl in Hdet, Hd. subst det vals.
  unfold activated, initialised, init_values, environ_vars_trump_of.
  destruct w as [[classes det flag trump] h n fs env l]. simpl in Hnone.
  subst det. unfold_M. cbn. rewrite Htrue. cbn.
  destruct trump; reflexivity.
Qed.


(** X1.  Registering an instance that is not registered yet, whose
    detector returns a true value, while no provider is active and its
    [value_dict()] returns [d]: the call returns, the instance is
    initialised in place ([d] over what it held), becomes the active
    provider, is appended to the registry, and the controller's trump
    flag becomes its old value or the provider's; nothing is logged and
    the double-match flag is untouched. *)
Theorem register_match
    (w : world) (r : ref) (o : DynaSettings) (v : pyval) (d : gmap string pyval) :
  r ∉ dyna_settings_classes (controller w) ->
  heap w !! r = Some o ->
  env_detector o = Ok v ->
  truthy v = true ->
  detected_settings (controller w) = None ->
  value_dict o = Ok d ->
  register (PyRef r) w = (Ok tt, activated r o d w) /\
  detected_settings (controller (activated r o d w)) = Some r /\
  dyna_settings_classes (controller (activated r o d w))
  = (dyna_settings_classes (controller w) ++ [r])%list /\
  environ_vars_trump (controller (activated r o d w))
  = environ_vars_trump (controller w) || _environ_vars_trump o /\
  heap (activated r o d w) !! r = Some (initialised d o) /\
  log (activated r o d w) = log w.
Proof.
  intros Hnew Ho Hdet Htrue Hnone Hd.
  rewrite (register_PyRef w r o Hnew Ho).
  rewrite (register_instance_match r o w v d Hdet Htrue Hnone Hd).
  repeat split. simpl. apply lookup_insert_eq.
Qed.

Lemma register_match_witness :
  register (PyRef 0) Scenario.w_start
  = (Ok tt,
     activated 0 Scenario.KristineDevSettings
       (<["HOST" := PyStr "192.168.56.101"]>
          (<["SECRET" := PyFunction 0]> (<["DBPort" := PyStr ""]> ∅)))
       Scenario.w_start).
Proof.
  destruct (register_match Scenario.w_start 0 Scenario.KristineDevSettings
              (PyBool true)
              (<["HOST" := PyStr "192.168.56.101"]>
                 (<["SECRET" := PyFunction 0]> (<["DBPort" := PyStr ""]> ∅))))
    as (Heq & _).
  - vm_compute. intros Hin. inversion Hin.
  - vm_compute. reflexivity.
  - reflexivity.
  - reflexivity.
  - reflexivity.
  - reflexivity.
  - exact Heq.
Defined.



(** X3.  When the provider's own code raises during registration (the
    detector raises, as the base class's does, or the instance matches an
    empty slot and [value_dict()] raises), [register] raises the same
    exception and leaves the whole world as it was: the instance is
    neither activated nor appended to the registry. *)
Theorem register_provider_raises
    (w : world) (r : ref) (o : DynaSettings) (e : exn) :
  r ∉ dyna_settings_classes (controller w) ->
  heap w !! r = Some o ->
  provider_raises o w e ->
  register (PyRef r) w = (Raise e, w).
Proof.
  intros Hnew Ho Hraises.
  rewrite (register_PyRef w r o Hnew Ho).
  unfold init_values. unfold_M.
  destruct Hraises as [Hdet | (v & Hdet & Htrue & Hnone & Hd)].
  - rewrite Hdet. reflexivity.
  - rewrite Hdet. cbn. rewrite Htrue. cbn. rewrite Hnone. cbn.
    unfold init_values. rewrite Hd. reflexivity.
Qed.

Lemma register_provider_raises_witness :
  register (PyRef 3)
    (construct (DynaSettings_init (Raise (Raised "NotImplementedError"))
                  (Raise (Raised "NotImplementedError")) false)
       Scenario.w_start)
  = (Raise (Raised "NotImplementedError"),
     construct (DynaSettings_init (Raise (Raised "NotImplementedError"))
                  (Raise (Raised "NotImplementedError")) false)
       Scenario.w_start).
Proof.
  apply (register_provider_raises _ 3
           (DynaSettings_init (Raise (Raised "NotImplementedError"))
              (Raise (Raised "NotImplementedError")) false)).
  - vm_compute. intros Hin. inversion Hin.
  - vm_compute. reflexivity.
  - left. reflexivity.
Defined.

(** X4.  A [register] call that raises, whatever it was handed and
    whatever it raises, leaves the registry list, the active provider and
    the trump flag as they were; the double-match flag changes only when
    the exception is the multiple-match one, and then to true. *)
Theorem register_raise_keeps_controller (x : pyobj) (w : world) (e : exn) :
  fst (register x w) = Raise e ->
  dyna_settings_classes (controller (snd (register x w)))
  = dyna_settings_classes (controller w) /\
  detected_settings (controller (snd (register x w)))
  = detected_settings (controller w) /\
  environ_vars_trump (controller (snd (register x w)))
  = environ_vars_trump (controller w) /\
  (did_find_multiple_matches (controller (snd (register x w)))
   = did_find_multiple_matches (controller w) \/
   did_find_multiple_matches (controller (snd (register x w))) = true /\
   exists q : ref, e = MultipleMatch q).
Proof.
  unfold MultipleMatch. run.
  repeat case_match; simplify_eq/=; intros He; simplify_eq/=;
    repeat split; eauto.
Qed.

Lemma register_raise_keeps_controller_witness :
  dyna_settings_classes (controller Scenario.w_lee)
  = dyna_settings_classes (controller Scenario.w_kristine) /\
  detected_settings (controller Scenario.w_lee)
  = detected_settings (controller Scenario.w_kristine).
Proof.
  destruct (register_raise_keeps_controller (PyRef 1) Scenario.w_kristine
              (MultipleMatch 1)) as (Hreg & Hdet & _).
  - vm_compute. reflexivity.
  - split; [exact Hreg | exact Hdet].
Defined.

(** ** The registry list *)

(** What one [register] call does to the registry list: nothing, or it
    appends the instance it worked on. *)
Lemma register_instance_registry (r : ref) (o : DynaSettings) (w : world) :
  dyna_settings_classes (controller (snd (register_instance r o w)))
  = dyna_settings_classes (controller w) \/
  dyna_settings_classes (controller (snd (register_instance r o w)))
  = (dyna_settings_classes (controller w) ++ [r])%list.
Proof.
  run. repeat case_match; simplify_eq/=; eauto.
Qed.

Lemma register_registry_cases (x : pyobj) (w : world) :
  invariant w ->
  dyna_settings_classes (controller (snd (register x w)))
  = dyna_settings_classes (controller w) \/
  exists r : ref,
    (r ∉ dyna_settings_classes (controller w)) /\
    dyna_settings_classes (controller (snd (register x w)))
    = (dyna_settings_classes (controller w) ++ [r])%list.
Proof.
  intros [Ha Hb _ _].
  destruct (py_in x (dyna_settings_classes (controller w))) as [r|] eqn:Hin.
  - apply py_in_Some in Hin as [-> Hin].
    rewrite (register_registered _ _ Hin). by left.
  - destruct x as [r | [[o | v] | e] | v].
    + assert (Hnew : r ∉ dyna_settings_classes (controller w)).
      { intros Hr. by rewrite (py_in_ref_elem _ _ Hr) in Hin. }
      destruct (heap w !! r) as [o|] eqn:Ho.
      * rewrite (register_PyRef _ _ o Hnew Ho).
        destruct (register_instance_registry r o w) as [-> | ->]; eauto.
      * left. unfold_M. rewrite Hin, Ho. reflexivity.
    + rewrite register_PyType.
      destruct (register_instance_registry (next_ref w) o (construct o w))
        as [-> | ->]; [by left | right].
      exists (next_ref w). split; [|reflexivity].
      intros Hr. specialize (Ha _ (Hb _ Hr)). lia.
    + left. run. reflexivity.
    + left. run. reflexivity.
    + left. run. reflexivity.
Qed.

(** X6.  The registry list never holds an instance twice: in every
    reachable world it is duplicate-free. *)
Theorem registry_NoDup (w : world) :
  reachable w -> NoDup (dyna_settings_classes (controller w)).
Proof.
  induction 1 as [fs env | w w' Hw IH Hstep]; simpl.
  - constructor.
  - destruct Hstep; simpl.
    + exact IH.
    + destruct (register_registry_cases x w (invariant_reachable w Hw))
        as [-> | (r & Hnew & ->)]; [exact IH|].
      apply NoDup_app. split; [exact IH|]. split.
      * intros r' Hr' Hin. apply list_elem_of_singleton in Hin as ->.
        contradiction.
      * apply NoDup_singleton.
    + exact IH.
    + constructor.
Qed.

Lemma registry_NoDup_witness :
  NoDup (dyna_settings_classes (controller Scenario.w_lee)).
Proof.
  apply (registry_NoDup Scenario.w_lee). apply reachable_w_lee.
Defined.

(** X7.  [register] only ever appends to the registry list: what was
    registered stays registered, in the order of registration, and one
    call adds at most one instance. *)
Theorem registry_append_only (x : pyobj) (w : world) :
  dyna_settings_classes (controller w)
    `prefix_of` dyna_settings_classes (controller (snd (register x w))) /\
  length (dyna_settings_classes (controller (snd (register x w))))
  <= S (length (dyna_settings_classes (controller w))).
Proof.
  assert (Hcases :
    dyna_settings_classes (controller (snd (register x w)))
    = dyna_settings_classes (controller w) \/
    exists r : ref,
      dyna_settings_classes (controller (snd (register x w)))
      = (dyna_settings_classes (controller w) ++ [r])%list).
  { run. repeat case_match; simplify_eq/=; eauto. }
  destruct Hcases as [-> | (r & ->)].
  - split; [reflexivity | lia].
  - split; [by apply prefix_app_r | rewrite length_app; simpl; lia].
Qed.



(** ** The heap *)

Lemma register_instance_heap_other
    (r r' : ref) (o : DynaSettings) (w : world) :
  r <> r' ->
  heap (snd (register_instance r o w)) !! r' = heap w !! r'.
Proof.
  intros Hne. run.
  repeat case_match; simplify_eq/=; try done; by rewrite lookup_insert_ne.
Qed.

(** X10.  Registering one object never touches another provider: in a
    reachable world, every instance on the heap other than the one being
    registered is the same after the call, whether it returns or raises. *)
Theorem register_other_instances (x : pyobj) (w : world) (r' : ref)
    (o' : DynaSettings) :
  reachable w ->
  heap w !! r' = Some o' ->
  x <> PyRef r' ->
  heap (snd (register x w)) !! r' = Some o'.
Proof.
  intros Hw Ho' Hx. pose proof (invariant_reachable w Hw) as [Ha Hb _ _].
  destruct (py_in x (dyna_settings_classes (controller w))) as [r|] eqn:Hin.
  - apply py_in_Some in Hin as [-> Hin].
    rewrite (register_registered _ _ Hin). exact Ho'.
  - destruct x as [r | [[o | v] | e] | v].
    + assert (Hnew : r ∉ dyna_settings_classes (controller w)).
      { intros Hr. by rewrite (py_in_ref_elem _ _ Hr) in Hin. }
      destruct (heap w !! r) as [o|] eqn:Ho.
      * rewrite (register_PyRef _ _ o Hnew Ho).
        rewrite register_instance_heap_other; [exact Ho' | congruence].
      * unfold_M. rewrite Hin, Ho. exact Ho'.
    + assert (Hlt : r' < next_ref w) by (apply Ha; eauto).
      rewrite register_PyType.
      rewrite register_instance_heap_other by lia.
      unfold construct, alloc. simpl. rewrite lookup_insert_ne by lia.
      exact Ho'.
    + run. exact Ho'.
    + run. exact Ho'.
    + run. exact Ho'.
Qed.

Lemma register_other_instances_witness :
  heap Scenario.w_kristine !! 1 = Some Scenario.LeeDevSettings.
Proof.
  apply (register_other_instances (PyRef 0) Scenario.w_start 1
           Scenario.LeeDevSettings).
  - apply reachable_w_start.
  - vm_compute. reflexivity.
  - discriminate.
Defined.

(** ** The provider's mapping *)

(** X11.  [init_values()] is idempotent: initialising an initialised
    instance again (as happens when it is registered again after a
    [reset]) leaves it as it is. *)
Theorem init_values_idempotent (self self' : DynaSettings) :
  init_values self = Ok self' ->
  init_values self' = Ok self'.
Proof.
  unfold init_values. destruct (value_dict self) as [d | e] eqn:Hd;
    [|discriminate].
  intros [= <-]. simpl.
  by rewrite (assoc_L (∪)), (idemp_L (∪)).
Qed.

Lemma init_values_idempotent_witness :
  init_values Scenario.method_settings = Ok Scenario.method_settings.
Proof.
  apply (init_values_idempotent Scenario.MethodSettings).
  vm_compute. reflexivity.
Defined.

(** X12.  After [init_values()], [get_value] answers from what
    [value_dict()] returned for every name that is in it, whatever the
    instance held under that name before, and answers as before
    initialisation for every other name. *)
Theorem get_value_after_init_values
    (call : call_table) (self self' : DynaSettings) (d : gmap string pyval)
    (setting_name : string) (production_value : pyval) :
  value_dict self = Ok d ->
  init_values self = Ok self' ->
  get_value call self' setting_name production_value
  = match d !! setting_name with
    | Some _ => looked_up call d setting_name production_value
    | None => get_value call self setting_name production_value
    end.
Proof.
  intros Hd Hinit. unfold get_value, looked_up.
  rewrite (init_values_lookup self self' d setting_name Hd Hinit).
  destruct (d !! setting_name); reflexivity.
Qed.

Lemma get_value_after_init_values_witness :
  get_value Scenario.fs Scenario.method_settings "SECRET" (PyStr "abc")
  = Ok (PyCallable 1).
Proof.
  rewrite (get_value_after_init_values Scenario.fs Scenario.MethodSettings
             Scenario.method_settings (<["SECRET" := PyCallable 1]> ∅)
             "SECRET" (PyStr "abc")).
  - vm_compute. reflexivity.
  - reflexivity.
  - vm_compute. reflexivity.
Defined.

(** ** Resolution through the active provider *)

Lemma dyna_value_no_trump_provider
    (w : world) (setting_name : string) (production_value : pyval)
    (p : ref) (o : DynaSettings) :
  environ_vars_trump (controller w) = false ->
  detected_settings (controller w) = Some p ->
  heap w !! p = Some o ->
  dyna_value setting_name production_value w
  = (get_value (functions w) o setting_name production_value, w).
Proof.
  intros Hoff Hp Ho. unfold dyna_value. rewrite Hoff, Hp. simpl. rewrite Ho.
  by destruct (get_value (functions w) o setting_name production_value).
Qed.



(** X14.  With trump mode off the environment variables are never
    consulted: [dyna_value] gives the same result under any other
    environment block. *)
Theorem dyna_value_ignores_environ
    (w : world) (env : gmap string string)
    (setting_name : string) (production_value : pyval) :
  environ_vars_trump (controller w) = false ->
  fst (dyna_value setting_name production_value (with_os_environ env w))
  = fst (dyna_value setting_name production_value w).
Proof.
  intros Hoff. unfold dyna_value, with_os_environ. simpl. rewrite Hoff. simpl.
  repeat case_match; simplify_eq/=; done.
Qed.

Lemma dyna_value_ignores_environ_witness :
  fst (dyna_value "HOST" (PyStr "anything")
         (with_os_environ ∅ Scenario.w_kristine))
  = fst (dyna_value "HOST" (PyStr "anything") Scenario.w_kristine).
Proof.
  apply (dyna_value_ignores_environ Scenario.w_kristine ∅ "HOST"
           (PyStr "anything")).
  vm_compute. reflexivity.
Defined.

(** X15.  [dyna_values()] and [dyna_value] agree: with trump mode off,
    when [dyna_values()] returns a mapping, [dyna_value] answers every
    name from that mapping (a stored value, the outcome of a stored
    function, or the production value for a name that is not in it). *)
Theorem dyna_values_dyna_value
    (w : world) (m : gmap string pyval)
    (setting_name : string) (production_value : pyval) :
  environ_vars_trump (controller w) = false ->
  fst (dyna_values w) = Ok (Some m) ->
  fst (dyna_value setting_name production_value w)
  = looked_up (functions w) m setting_name production_value.
Proof.
  intros Hoff. unfold dyna_values.
  destruct (detected_settings (controller w)) as [p|] eqn:Hp;
    [|discriminate].
  destruct (heap w !! p) as [o|] eqn:Ho; simpl; [|discriminate].
  intros [= <-].
  by rewrite (dyna_value_no_trump_provider w setting_name production_value
                p o Hoff Hp Ho).
Qed.

Lemma dyna_values_dyna_value_witness :
  fst (dyna_value "SECRET" (PyStr "abc") Scenario.w_kristine)
  = Ok (PyStr "secret-abc").
Proof.
  rewrite (dyna_values_dyna_value Scenario.w_kristine
             (_value_dict Scenario.kristine) "SECRET" (PyStr "abc")).
  - vm_compute. reflexivity.
  - vm_compute. reflexivity.
  - vm_compute. reflexivity.
Defined.

(** ** From registration to resolution *)

(** X17.  A provider that asks for trump mode switches it on when it
    becomes active: from then on a set, non-empty environment variable
    is what [dyna_value] returns, before the provider's own mapping. *)
Theorem register_trump_provider
    (w : world) (r : ref) (o : DynaSettings) (v : pyval)
    (d : gmap string pyval) (setting_name s : string)
    (production_value : pyval) :
  r ∉ dyna_settings_classes (controller w) ->
  heap w !! r = Some o ->
  env_detector o = Ok v ->
  truthy v = true ->
  detected_settings (controller w) = None ->
  value_dict o = Ok d ->
  _environ_vars_trump o = true ->
  os_environ w !! setting_name = Some s ->
  s <> "" ->
  environ_vars_trump (controller (snd (register (PyRef r) w))) = true /\
  fst (dyna_value setting_name production_value (snd (register (PyRef r) w)))
  = Ok (PyStr s).
Proof.
  intros Hnew Ho Hdet Htrue Hnone Hd Hwants Hs Hne.
  rewrite (register_PyRef w r o Hnew Ho).
  rewrite (register_instance_match r o w v d Hdet Htrue Hnone Hd).
  simpl. rewrite Hwants, orb_true_r. split; [reflexivity|].
  unfold dyna_value, os_environ_get. simpl. rewrite Hwants, orb_true_r, Hs.
  simpl. destruct (String.eqb_spec s ""); [contradiction | reflexivity].
Qed.

Lemma register_trump_provider_witness :
  fst (dyna_value "HOST" (PyStr "anything")
         (snd (register (PyRef 1) Scenario.w_start)))
  = Ok (PyStr "10.0.0.9").
Proof.
  apply (register_trump_provider Scenario.w_start 1 Scenario.LeeDevSettings
           (PyBool true) (<["HOST" := PyStr "127.0.0.1"]> ∅) "HOST" "10.0.0.9"
           (PyStr "anything")).
  - vm_compute. intros Hin. inversion Hin.
  - vm_compute. reflexivity.
  - reflexivity.
  - reflexivity.
  - reflexivity.
  - reflexivity.
  - reflexivity.
  - vm_compute. reflexivity.
  - discriminate.
Defined.

(** ** Reset and the global trump switch *)

(** X18.  After [reset()] the provider that was registered can be
    registered again: there is no duplicate error, it becomes the active
    provider of a registry holding just it, and since it was initialised
    already, initialising it again changes nothing on the heap. *)
Theorem register_again_after_reset
    (w : world) (r : ref) (o0 o : DynaSettings) (v : pyval) :
  init_values o0 = Ok o ->
  heap w !! r = Some o ->
  env_detector o = Ok v ->
  truthy v = true ->
  fst (register (PyRef r) (snd (reset w))) = Ok tt /\
  detected_settings (controller (snd (register (PyRef r) (snd (reset w)))))
  = Some r /\
  dyna_settings_classes (controller (snd (register (PyRef r) (snd (reset w)))))
  = [r] /\
  heap (snd (register (PyRef r) (snd (reset w)))) = heap w.
Proof.
  intros Hinit Ho Hdet Htrue.
  assert (Hidem : init_values o = Ok o).
  { revert Hinit. unfold init_values.
    destruct (value_dict o0) as [d0 | e0] eqn:Hd0; [|discriminate].
    intros [= <-]. simpl. by rewrite (assoc_L (∪)), (idemp_L (∪)). }
  unfold init_values in Hidem.
  destruct (value_dict o) as [d | e] eqn:Hd; [|discriminate].
  assert (Hsame : initialised d o = o).
  { injection Hidem as Hrec. unfold initialised. rewrite Hd. exact Hrec. }
  assert (Hreset : reset w = (Ok tt, with_controller DynaSettingsController_init w))
    by (run; reflexivity).
  rewrite Hreset. simpl.
  rewrite (register_PyRef (with_controller DynaSettingsController_init w) r o);
    [| simpl; apply not_elem_of_nil | exact Ho].
  rewrite (register_instance_match r o
             (with_controller DynaSettingsController_init w) v d
             Hdet Htrue eq_refl Hd).
  simpl. rewrite Hsame. repeat split. by apply insert_id.
Qed.

Lemma register_again_after_reset_witness :
  detected_settings
    (controller (snd (register (PyRef 0) (snd (reset Scenario.w_lee)))))
  = Some 0 /\
  heap (snd (register (PyRef 0) (snd (reset Scenario.w_lee))))
  = heap Scenario.w_lee.
Proof.
  destruct (register_again_after_reset Scenario.w_lee 0
              Scenario.KristineDevSettings Scenario.kristine (PyBool true))
    as (_ & Hactive & _ & Hheap).
  - vm_compute. reflexivity.
  - vm_compute. reflexivity.
  - reflexivity.
  - reflexivity.
  - split; [exact Hactive | exact Hheap].
Defined.


